(** * NLP_SlackBot: the two command handlers of [main.go]

    The bot registers two Slack commands.  Each handler drives one request
    through Wit.ai (NLU), [encoding/json], [gjson] and Wolfram Alpha and
    answers through [response.Reply].  The handlers are embedded as programs
    over the calls they make to those libraries; running a program against a
    [world] (one behaviour of every library) gives the chronological trace of
    calls and the way the handler ended. *)

From Stdlib Require Import ZArith Lia Ascii.
From stdpp Require Import base list strings.

(** ** Data of the collaborating libraries *)

(** A Go [error], kept as the text [%v] prints for it. *)
Definition error := string.

(** A Go call returning [(T, error)]: either the value or a non-nil error. *)
Inductive result (T : Type) : Type :=
| Ok (v : T)
| Err (err : error).
Arguments Ok {T} v.
Arguments Err {T} err.

(** [wolfram.Unit]. *)
Inductive Unit : Type := Imperial | Metric.

(** [url.Values]; the full handler passes [nil]. *)
Definition Values := list (string * list string).

(** The fields of [wolfram.SubPod], [wolfram.Pod] and [wolfram.QueryResult]
    that the handler reads.  [Success] is compared with a string in the
    source, so it is a string here. *)
Record SubPod : Type := { Plaintext : string }.
Record Pod : Type := { Title : string; SubPods : list SubPod }.
Record QueryResult : Type := { Success : string; Pods : list Pod }.

(** [gjson.Result], seen through the two methods the handlers call. *)
Record Result : Type := { Exists : bool; String_ : string }.

(** ** Programs over library calls *)

Section Programs.
(** [*witai.MessageResponse]: the handlers only pass it on. *)
Context {Msg : Type}.

(** The library calls of [main.go], indexed by the type of what they return.
    [log.Printf] is recorded with the line it formats. *)
Inductive call : Type -> Type :=
| Parse (Query : string) : call (result Msg)
| MarshalIndent (v : Msg) (prefix indent : string) : call (result (list Byte.byte))
| Get (json path : string) : call Result
| GetSpokentAnswerQuery (query : string) (units : Unit) (maxchars : Z) : call (result string)
| GetQueryResult (query : string) (params : Values) : call (result QueryResult)
| Printf (line : string) : call unit
| Reply (text : string) : call unit.

(** A handler body: it returns, panics (a Go run-time panic), or makes a call
    and goes on with the answer. *)
Inductive prog (A : Type) : Type :=
| Ret (a : A)
| Panic (reason : string)
| Call {X : Type} (c : call X) (k : X -> prog A).
#[global] Arguments Ret {A} a.
#[global] Arguments Panic {A} reason.
#[global] Arguments Call {A X} c k.

Fixpoint bind {A B : Type} (p : prog A) (f : A -> prog B) : prog B :=
  match p with
  | Ret a => f a
  | Panic reason => Panic reason
  | Call c k => Call c (fun x => bind (k x) f)
  end.

Definition do {X : Type} (c : call X) : prog X := Call c Ret.

(** One behaviour of every library for the duration of a request.  A handler
    makes each call at most once, so a function of the arguments covers every
    answer a collaborator can give. *)
Record world : Type := {
  witai_Parse : string -> result Msg;
  json_MarshalIndent : Msg -> string -> string -> result (list Byte.byte);
  gjson_Get : string -> string -> Result;
  wolfram_GetSpokentAnswerQuery : string -> Unit -> Z -> result string;
  wolfram_GetQueryResult : string -> Values -> result QueryResult
}.

Definition answer_to (W : world) {X : Type} (c : call X) : X :=
  match c in call T return T with
  | Parse q => witai_Parse W q
  | MarshalIndent v p i => json_MarshalIndent W v p i
  | Get j p => gjson_Get W j p
  | GetSpokentAnswerQuery q u n => wolfram_GetSpokentAnswerQuery W q u n
  | GetQueryResult q ps => wolfram_GetQueryResult W q ps
  | Printf _ => tt
  | Reply _ => tt
  end.

Inductive event : Type :=
| Ev {X : Type} (c : call X).

Inductive outcome (A : Type) : Type :=
| Returned (a : A)
| Panicked (reason : string).
#[global] Arguments Returned {A} a.
#[global] Arguments Panicked {A} reason.

(** The trace of calls in the order they are made, and how the body ended. *)
Fixpoint run {A : Type} (W : world) (p : prog A) : list event * outcome A :=
  match p with
  | Ret a => ([], Returned a)
  | Panic reason => ([], Panicked reason)
  | Call c k =>
      let (t, o) := run W (k (answer_to W c)) in (Ev c :: t, o)
  end.

Definition trace {A : Type} (W : world) (p : prog A) : list event := fst (run W p).
Definition ending {A : Type} (W : world) (p : prog A) : outcome A := snd (run W p).

(** *** Observations on a trace *)

Definition reply_of (e : event) : option string :=
  match e with
  | Ev c => match c with Reply text => Some text | _ => None end
  end.

Definition log_of (e : event) : option string :=
  match e with
  | Ev c => match c with Printf line => Some line | _ => None end
  end.

(** The query string of a call to Wolfram Alpha, in either mode. *)
Definition knowledge_query_of (e : event) : option string :=
  match e with
  | Ev c =>
      match c with
      | GetSpokentAnswerQuery q _ _ => Some q
      | GetQueryResult q _ => Some q
      | _ => None
      end
  end.

Definition is_knowledge_call (e : event) : bool :=
  match knowledge_query_of e with Some _ => true | None => false end.

Definition replies (t : list event) : list string := omap reply_of t.
Definition logs (t : list event) : list string := omap log_of t.
Definition knowledge_queries (t : list event) : list string := omap knowledge_query_of t.
Definition knowledge_calls (t : list event) : list event := filter is_knowledge_call t.

End Programs.

Arguments call Msg : clear implicits.
Arguments prog Msg A : clear implicits.
Arguments world Msg : clear implicits.
Arguments event Msg : clear implicits.

Declare Scope prog_scope.
Delimit Scope prog_scope with prog.
Notation "x <- p ;; q" := (bind p (fun x => q))
  (at level 100, p at next level, q at level 200, right associativity) : prog_scope.
Notation "p ;; q" := (bind p (fun _ => q))
  (at level 100, q at level 200, right associativity) : prog_scope.

(** ** The handlers *)

Section Handlers.
Context {Msg : Type}.
Local Open Scope prog_scope.

(** The line feed of the Go literal ["*%s*\n"]. *)
Definition LF : string := String (Ascii.ascii_of_nat 10) EmptyString.

(** The path both handlers give to [gjson.Get]. *)
Definition entity_path : string :=
  "entities.wit$wolfram_search_query:wolfram_search_query.0.value".

(** [string(data[:])] *)
Definition string_of_bytes (data : list Byte.byte) : string :=
  String.string_of_list_byte data.

(** [answer := query; if value.Exists() { answer = value.String() }] *)
Definition refine (query : string) (value : Result) : string :=
  let answer := query in
  if Exists value then String_ value else answer.

(** [s[i]] on a slice: Go panics when [i] is out of range. *)
Definition index {A : Type} (s : list A) (i : nat) : prog Msg A :=
  match s !! i with
  | Some x => Ret x
  | None => Panic "index out of range"
  end.

(** [data, _ := json.MarshalIndent(...)]: the error is dropped; with an error
    [encoding/json] returns nil data. *)
Definition drop_err (r : result (list Byte.byte)) : list Byte.byte :=
  match r with
  | Ok data => data
  | Err _ => []
  end.

(** Handler of ["query for bot - <message>"]; [query] is
    [request.Param("message")]. *)
Definition query_handler (query : string) : prog Msg unit :=
  r <- do (Parse query);;
  match r with
  | Err err =>
      do (Printf ("error calling Wit.ai: " +:+ err));;
      do (Reply "Sorry, I'm having trouble understanding right now.")
  | Ok msg =>
      r <- do (MarshalIndent msg "" "    ");;
      match r with
      | Err err =>
          do (Printf ("error marshalling wit.ai response: " +:+ err));;
          do (Reply "Sorry, I'm having trouble processing the response.")
      | Ok data =>
          let rough := string_of_bytes data in
          value <- do (Get rough entity_path);;
          let answer := refine query value in
          r <- do (GetSpokentAnswerQuery answer Metric 1000);;
          match r with
          | Err err =>
              do (Printf ("wolfram query failed: " +:+ err));;
              do (Reply "Sorry, I couldn't get an answer from Wolfram Alpha.")
          | Ok res => do (Reply res)
          end
      end
  end.

(** The end of the full handler, after its check of the report: the second
    pod's title and its first sub-pod's text, written to a
    [strings.Builder], then the reply. *)
Definition format_report (res : QueryResult) : prog Msg unit :=
  pod <- index (Pods res) 1;;
  let builder := "" in
  let builder := builder +:+ ("*" +:+ Title pod +:+ "*" +:+ LF) in
  subpod <- index (SubPods pod) 0;;
  let builder := builder +:+ ("```" +:+ Plaintext subpod +:+ "```") in
  do (Reply builder).

(** [res.Success == "false" || len(res.Pods) < 2] *)
Definition no_answer (res : QueryResult) : bool :=
  String.eqb (Success res) "false" || (length (Pods res) <? 2).

(** Handler of ["full query for bot - <message>"]. *)
Definition full_query_handler (query : string) : prog Msg unit :=
  do (Reply "Thinking...");;
  r <- do (Parse query);;
  match r with
  | Err err =>
      do (Printf ("error calling Wit.ai: " +:+ err));;
      do (Reply "Sorry, I'm having trouble understanding right now.")
  | Ok msg =>
      r <- do (MarshalIndent msg "" "    ");;
      let data := drop_err r in
      let rough := string_of_bytes data in
      value <- do (Get rough entity_path);;
      let answer := refine query value in
      r <- do (GetQueryResult answer []);;
      match r with
      | Err err =>
          do (Printf ("wolfram full query failed: " +:+ err));;
          do (Reply "Sorry, I couldn't get a full report from Wolfram Alpha.")
      | Ok res =>
          if no_answer res
          then do (Reply "Sorry, Wolfram Alpha couldn't find an answer for that.")
          else format_report res
      end
  end.

(** *** The fixed replies, under the names of the error taxonomy *)

Definition Thinking : string := "Thinking...".
Definition NLUUnavailable : string :=
  "Sorry, I'm having trouble understanding right now.".
Definition SerializationFailed : string :=
  "Sorry, I'm having trouble processing the response.".
Definition KnowledgeUnavailable_spoken : string :=
  "Sorry, I couldn't get an answer from Wolfram Alpha.".
Definition KnowledgeUnavailable_full : string :=
  "Sorry, I couldn't get a full report from Wolfram Alpha.".
Definition KnowledgeNoAnswer : string :=
  "Sorry, Wolfram Alpha couldn't find an answer for that.".

(** The rendering of a pod title and a sub-pod text in Slack markup. *)
Definition rendering (title plaintext : string) : string :=
  "*" +:+ title +:+ "*" +:+ LF +:+ "```" +:+ plaintext +:+ "```".

End Handlers.

(** ** Test doubles

    Worlds for the scenarios below.  The NLU response is cut down to what
    the handlers can observe of it: whether it serialises, and the value it
    holds at [entity_path].  Its serialisation is a one-letter tag followed
    by that value, and the [gjson] double reads the tag back; the empty
    document holds no value. *)

Inductive sample_msg : Type :=
| NoEntity
| Entity (value : string)
| Unserializable.

Definition sample_marshal (m : sample_msg) (prefix indent : string)
  : result (list Byte.byte) :=
  match m with
  | NoEntity => Ok (String.list_byte_of_string "N")
  | Entity value => Ok (String.list_byte_of_string ("E" +:+ value))
  | Unserializable => Err "json: unsupported value: NaN"
  end.

Definition sample_get (json path : string) : Result :=
  match json with
  | String "E"%char value =>
      if String.eqb path entity_path
      then {| Exists := true; String_ := value |}
      else {| Exists := false; String_ := "" |}
  | _ => {| Exists := false; String_ := "" |}
  end.

Definition sample_world (nlu : string -> result sample_msg)
    (spoken : string -> result string)
    (full : string -> result QueryResult) : world sample_msg :=
  {| witai_Parse := nlu;
     json_MarshalIndent := sample_marshal;
     gjson_Get := sample_get;
     wolfram_GetSpokentAnswerQuery := fun q _ _ => spoken q;
     wolfram_GetQueryResult := fun q _ => full q |}.

Definition unreachable {T : Type} : string -> result T :=
  fun _ => Err "connection refused".

Definition pod_input : Pod :=
  {| Title := "Input interpretation";
     SubPods := [ {| Plaintext := "weather | New York" |} ] |}.
Definition pod_weather : Pod :=
  {| Title := "Weather";
     SubPods := [ {| Plaintext := "72 F" |}; {| Plaintext := "clear" |} ] |}.
Definition pod_history : Pod :=
  {| Title := "History"; SubPods := [ {| Plaintext := "low: 60 F" |} ] |}.
Definition pod_empty : Pod := {| Title := "Result"; SubPods := [] |}.

Definition report_weather : QueryResult :=
  {| Success := "true"; Pods := [pod_input; pod_weather; pod_history] |}.
(** A report whose [success] attribute is absent: Go leaves the field [""]. *)
Definition report_no_flag : QueryResult :=
  {| Success := ""; Pods := [pod_input; pod_weather] |}.
Definition report_failed : QueryResult :=
  {| Success := "false"; Pods := [] |}.
(** A report that passes the handler's check and whose second pod has no
    sub-pod. *)
Definition report_empty_pod : QueryResult :=
  {| Success := "true"; Pods := [pod_input; pod_empty] |}.

(** Scenario 1: the entity is found, the spoken answer is ["Paris"]. *)
Definition world_paris : world sample_msg :=
  sample_world (fun q => Ok (Entity "capital of france"))
               (fun q => Ok "Paris") unreachable.
(** Scenario 2: no entity, Wolfram Alpha cannot be reached. *)
Definition world_offline : world sample_msg :=
  sample_world (fun q => Ok NoEntity) unreachable unreachable.
(** Wit.ai cannot be reached. *)
Definition world_no_nlu : world sample_msg :=
  sample_world unreachable (fun q => Ok "Paris") (fun q => Ok report_weather).
(** The NLU response does not serialise. *)
Definition world_unserializable : world sample_msg :=
  sample_world (fun q => Ok Unserializable)
               (fun q => Ok "Paris") (fun q => Ok report_weather).
(** The entity is present and its value is the empty string. *)
Definition world_empty_entity : world sample_msg :=
  sample_world (fun q => Ok (Entity ""))
               (fun q => Ok "Paris") (fun q => Ok report_weather).
(** Scenario 3: a full report of three pods. *)
Definition world_weather : world sample_msg :=
  sample_world (fun q => Ok NoEntity) unreachable (fun q => Ok report_weather).
Definition world_no_flag : world sample_msg :=
  sample_world (fun q => Ok NoEntity) unreachable (fun q => Ok report_no_flag).
(** Scenario 4: the report says [success="false"]. *)
Definition world_failed : world sample_msg :=
  sample_world (fun q => Ok NoEntity) unreachable (fun q => Ok report_failed).
Definition world_empty_pod : world sample_msg :=
  sample_world (fun q => Ok NoEntity) unreachable (fun q => Ok report_empty_pod).

(** An NLU response that holds [held_value] at [entity_path] and that
    [encoding/json] refuses, as it refuses a confidence that is not a
    number. *)
Record flawed_msg : Type := { held_value : string }.

(** Wit.ai finds the entity ["capital of france"]; the response does not
    serialise. *)
Definition world_flawed_entity : world flawed_msg :=
  {| witai_Parse := fun _ => Ok {| held_value := "capital of france" |};
     json_MarshalIndent := fun _ _ _ => Err "json: unsupported value: NaN";
     gjson_Get := sample_get;
     wolfram_GetSpokentAnswerQuery := fun _ _ _ => Ok "Paris";
     wolfram_GetQueryResult := fun _ _ => Ok report_weather |}.

(** ** More observations on a trace *)

Section Observations.
Context {Msg : Type}.

Definition is_Parse (e : event Msg) : bool :=
  match e with
  | Ev c => match c with Parse _ => true | _ => false end
  end.

Definition is_MarshalIndent (e : event Msg) : bool :=
  match e with
  | Ev c => match c with MarshalIndent _ _ _ => true | _ => false end
  end.

Definition is_Get (e : event Msg) : bool :=
  match e with
  | Ev c => match c with Get _ _ => true | _ => false end
  end.

Definition is_GetSpokentAnswerQuery (e : event Msg) : bool :=
  match e with
  | Ev c => match c with GetSpokentAnswerQuery _ _ _ => true | _ => false end
  end.

Definition is_GetQueryResult (e : event Msg) : bool :=
  match e with
  | Ev c => match c with GetQueryResult _ _ => true | _ => false end
  end.

(** The text given to Wit.ai by a [Parse] call. *)
Definition parsed_text_of (e : event Msg) : option string :=
  match e with
  | Ev c => match c with Parse q => Some q | _ => None end
  end.

Definition parsed_texts (t : list (event Msg)) : list string :=
  omap parsed_text_of t.

(** The value of [answer] in the spoken handler, once the response is
    serialised to [data]. *)
Definition spoken_answer (W : world Msg) (query : string)
    (data : list Byte.byte) : string :=
  refine query (gjson_Get W (string_of_bytes data) entity_path).

(** The value of [answer] in the full handler, once the response [msg] is
    parsed. *)
Definition full_answer (W : world Msg) (query : string) (msg : Msg) : string :=
  refine query
    (gjson_Get W (string_of_bytes (drop_err (json_MarshalIndent W msg "" "    ")))
       entity_path).

End Observations.

(** ** The event printer *)

Section Printer.
(** [time.Time], [*proper.Properties] and [*slack.MessageEvent]: the printer
    only hands them to [fmt.Println]. *)
Context {Time Properties MessageEvent : Type}.

(** [slacker.CommandEvent]. *)
Record CommandEvent : Type := {
  Timestamp : Time;
  Command : string;
  Parameters : Properties;
  Event : MessageEvent
}.

(** One call of [fmt.Println], by what it is given; [PNothing] is the call
    without argument, which prints an empty line. *)
Inductive printed : Type :=
| PString (s : string)
| PTime (t : Time)
| PProperties (p : Properties)
| PEvent (e : MessageEvent)
| PNothing.

(** [printCommandEvents]; the channel is the list of the events received
    from it until it is closed. *)
Fixpoint printCommandEvents (analyticsChannel : list CommandEvent)
  : list printed :=
  match analyticsChannel with
  | [] => []
  | event :: rest =>
      PString "Command Events"
      :: PTime (Timestamp event)
      :: PString (Command event)
      :: PProperties (Parameters event)
      :: PEvent (Event event)
      :: PNothing
      :: printCommandEvents rest
  end.

End Printer.

Arguments CommandEvent Time Properties MessageEvent : clear implicits.
Arguments printed Time Properties MessageEvent : clear implicits.

(** ** Start-up *)

Section Startup.
Context {Msg : Type}.

(** [slacker.CommandDefinition]; the handler is taken as a function of
    [request.Param("message")]. *)
Record CommandDefinition : Type :=
  { Description : string; Example : string; Handler : string -> prog Msg unit }.

(** What [main] does, step by step. *)
Inductive boot_event : Type :=
| godotenv_Load (filename : string)
| os_Getenv (key : string)
| slacker_NewClient (botToken appToken : string)
| witai_NewClient (token : string)
| set_wolframClient (AppID : string)
| go_printCommandEvents
| bot_Command (usage : string) (definition : CommandDefinition)
| context_WithCancel
| bot_Listen
| log_Fatal (err : error)
| cancel.

(** How the process ends: [main] returns, or [log.Fatal] exits with a
    status. *)
Inductive exit : Type :=
| MainReturns
| Exits (status : Z).

Definition query_command : CommandDefinition :=
  {| Description := "send any question to wolfram"; Example :=
     "who is the president of india"; Handler := query_handler |}.

Definition full_query_command : CommandDefinition :=
  {| Description := "send any question to wolfram for a full report"; Example :=
     "weather in new york"; Handler := full_query_handler |}.

(** A start-up program: it returns, stops in [log.Fatal], reads the
    environment, waits for [bot.Listen] to come back, defers a step to the
    return of [main], or takes a step. *)
Inductive boot : Type :=
| Return
| Fatal (err : error)
| Getenv (key : string) (k : string -> boot)
| Listen (k : option error -> boot)
| Defer (e : boot_event) (k : boot)
| Step (e : boot_event) (k : boot).

(** [main] of the file with both commands.  The value of [godotenv.Load] is
    discarded by the source. *)
Definition main : boot :=
  Step (godotenv_Load ".env") (
  Getenv "SLACK_BOT_TOKEN" (fun botToken =>
  Getenv "SLACK_APP_TOKEN" (fun appToken =>
  Step (slacker_NewClient botToken appToken) (
  Getenv "WIT_AI_TOKEN" (fun token =>
  Step (witai_NewClient token) (
  Getenv "WOLFRAM_APP_ID" (fun AppID =>
  Step (set_wolframClient AppID) (
  Step go_printCommandEvents (
  Step (bot_Command "query for bot - <message>" query_command) (
  Step (bot_Command "full query for bot - <message>" full_query_command) (
  Step context_WithCancel (
  Defer cancel (
  Listen (fun err =>
  match err with
  | Some err => Fatal err
  | None => Return
  end)))))))))))))).

(** Running a start-up program in an environment, with what [bot.Listen]
    returns when it comes back.  Deferred steps run, last deferred first,
    when [main] returns; [log.Fatal] writes the error and exits with status
    1 without running them. *)
Fixpoint run_boot (getenv : string -> string) (listen : option error)
    (deferred : list boot_event) (p : boot) : list boot_event * exit :=
  match p with
  | Return => (deferred, MainReturns)
  | Fatal err => ([log_Fatal err], Exits 1)
  | Getenv key k =>
      let (t, x) := run_boot getenv listen deferred (k (getenv key)) in
      (os_Getenv key :: t, x)
  | Listen k =>
      let (t, x) := run_boot getenv listen deferred (k listen) in
      (bot_Listen :: t, x)
  | Defer e k => run_boot getenv listen (e :: deferred) k
  | Step e k =>
      let (t, x) := run_boot getenv listen deferred k in (e :: t, x)
  end.

(** The commands a start-up trace registers, in order. *)
Definition command_of (e : boot_event) : option (string * CommandDefinition) :=
  match e with
  | bot_Command usage definition => Some (usage, definition)
  | _ => None
  end.

Definition commands (t : list boot_event) : list (string * CommandDefinition) :=
  omap command_of t.

Definition is_cancel (e : boot_event) : bool :=
  match e with cancel => true | _ => false end.

Definition is_Listen (e : boot_event) : bool :=
  match e with bot_Listen => true | _ => false end.

(** The credentials a start-up trace hands to the three clients: the two
    Slack tokens, the Wit.ai token and the Wolfram Alpha application id. *)
Definition credentials_of (e : boot_event) : list string :=
  match e with
  | slacker_NewClient botToken appToken => [botToken; appToken]
  | witai_NewClient token => [token]
  | set_wolframClient AppID => [AppID]
  | _ => []
  end.

Definition credentials (t : list boot_event) : list string :=
  concat (map credentials_of t).

End Startup.

Arguments CommandDefinition Msg : clear implicits.
Arguments boot_event Msg : clear implicits.

(** An event of the analytics channel, for the examples. *)
Definition sample_event (command : string) (stamp : nat)
  : CommandEvent nat (list (string * string)) string :=
  {| Timestamp := stamp; Command := command;
     Parameters := [("message", "capital of france")];
     Event := "message" |}.

(** ** Running the handlers *)

Section Semantics.
Context {Msg : Type}.
Implicit Types (W : world Msg) (query : string) (msg : Msg).

Lemma run_call {A X : Type} W (c : call Msg X) (k : X -> prog Msg A) :
  run W (Call c k) = (Ev c :: fst (run W (k (answer_to W c))),
                      snd (run W (k (answer_to W c)))).
Proof. simpl. destruct (run W (k (answer_to W c))). reflexivity. Qed.

Lemma run_bind {A B : Type} W (p : prog Msg A) (f : A -> prog Msg B) :
  run W (bind p f) =
  match run W p with
  | (t, Returned a) => (t ++ fst (run W (f a)), snd (run W (f a)))
  | (t, Panicked reason) => (t, Panicked reason)
  end.
Proof.
  induction p as [a | reason | X c k IH]; simpl.
  - destruct (run W (f a)); reflexivity.
  - reflexivity.
  - rewrite IH. destruct (run W (k (answer_to W c))) as [t [a | reason]]; reflexivity.
Qed.

Lemma append_assoc (a b c : string) : (a +:+ b) +:+ c = a +:+ (b +:+ c).
Proof.
  induction a as [| x a IH]; [reflexivity |].
  change (String x ((a +:+ b) +:+ c) = String x (a +:+ (b +:+ c))).
  now rewrite IH.
Qed.

(** Every run of the spoken handler, by the answers of the collaborators. *)
Lemma run_query_handler W query :
  run W (query_handler query) =
  match witai_Parse W query with
  | Err err =>
      ([Ev (Parse query); Ev (Printf ("error calling Wit.ai: " +:+ err));
        Ev (Reply NLUUnavailable)], Returned tt)
  | Ok msg =>
      match json_MarshalIndent W msg "" "    " with
      | Err err =>
          ([Ev (Parse query); Ev (MarshalIndent msg "" "    ");
            Ev (Printf ("error marshalling wit.ai response: " +:+ err));
            Ev (Reply SerializationFailed)], Returned tt)
      | Ok data =>
          let answer := refine query (gjson_Get W (string_of_bytes data) entity_path) in
          let pre := [Ev (Parse query); Ev (MarshalIndent msg "" "    ");
                      Ev (Get (string_of_bytes data) entity_path);
                      Ev (GetSpokentAnswerQuery answer Metric 1000)] in
          match wolfram_GetSpokentAnswerQuery W answer Metric 1000 with
          | Err err =>
              (pre ++ [Ev (Printf ("wolfram query failed: " +:+ err));
                       Ev (Reply KnowledgeUnavailable_spoken)], Returned tt)
          | Ok res => (pre ++ [Ev (Reply res)], Returned tt)
          end
      end
  end.
Proof.
  unfold query_handler, do. simpl.
  destruct (witai_Parse W query) as [msg | err]; simpl; [| reflexivity].
  destruct (json_MarshalIndent W msg "" "    ") as [data | err]; simpl; [| reflexivity].
  fold (string_of_bytes data).
  destruct (wolfram_GetSpokentAnswerQuery W _ Metric 1000); reflexivity.
Qed.

(** Every run of the formatting step. *)
Lemma run_format_report W (res : QueryResult) :
  run W (format_report res) =
  match Pods res !! 1 with
  | None => ([], Panicked "index out of range")
  | Some pod =>
      match SubPods pod !! 0 with
      | None => ([], Panicked "index out of range")
      | Some subpod =>
          ([Ev (Reply (rendering (Title pod) (Plaintext subpod)))], Returned tt)
      end
  end.
Proof.
  unfold format_report, index, do.
  destruct (Pods res !! 1) as [pod |]; simpl; [| reflexivity].
  destruct (SubPods pod !! 0) as [subpod |]; simpl; [| reflexivity].
  unfold rendering. simpl. now rewrite !append_assoc.
Qed.

(** Every run of the full handler, by the answers of the collaborators. *)
Lemma run_full_query_handler W query :
  run W (full_query_handler query) =
  match witai_Parse W query with
  | Err err =>
      ([Ev (Reply Thinking); Ev (Parse query);
        Ev (Printf ("error calling Wit.ai: " +:+ err));
        Ev (Reply NLUUnavailable)], Returned tt)
  | Ok msg =>
      let rough := string_of_bytes (drop_err (json_MarshalIndent W msg "" "    ")) in
      let answer := refine query (gjson_Get W rough entity_path) in
      let pre := [Ev (Reply Thinking); Ev (Parse query);
                  Ev (MarshalIndent msg "" "    ");
                  Ev (Get rough entity_path); Ev (GetQueryResult answer [])] in
      match wolfram_GetQueryResult W answer [] with
      | Err err =>
          (pre ++ [Ev (Printf ("wolfram full query failed: " +:+ err));
                   Ev (Reply KnowledgeUnavailable_full)], Returned tt)
      | Ok res =>
          if no_answer res
          then (pre ++ [Ev (Reply KnowledgeNoAnswer)], Returned tt)
          else (pre ++ fst (run W (format_report res)),
                snd (run W (format_report res)))
      end
  end.
Proof.
  unfold full_query_handler, do. simpl.
  destruct (witai_Parse W query) as [msg | err]; simpl; [| reflexivity].
  fold (string_of_bytes (drop_err (json_MarshalIndent W msg "" "    "))).
  destruct (wolfram_GetQueryResult W _ []) as [res | err]; simpl; [| reflexivity].
  destruct (no_answer res); simpl; [reflexivity |].
  destruct (run W (format_report res)); reflexivity.
Qed.

End Semantics.

(** ** Properties of the pipeline *)

Section Pipeline.
Context {Msg : Type}.
Implicit Types (W : world Msg) (query : string) (msg : Msg).

(** What both handlers send to the knowledge engine once the NLU response
    is parsed and serialised. *)
Lemma knowledge_queries_sent W query msg (data : list Byte.byte) :
  witai_Parse W query = Ok msg ->
  json_MarshalIndent W msg "" "    " = Ok data ->
  let answer := refine query (gjson_Get W (string_of_bytes data) entity_path) in
  knowledge_queries (trace W (query_handler query)) = [answer] /\
  knowledge_queries (trace W (full_query_handler query)) = [answer].
Proof.
  intros Hparse Hjson answer. unfold trace. split.
  - rewrite run_query_handler, Hparse, Hjson. fold answer. cbv zeta.
    destruct (wolfram_GetSpokentAnswerQuery W answer Metric 1000);
      reflexivity.
  - rewrite run_full_query_handler, Hparse, Hjson.
    cbn [drop_err]. fold answer. cbv zeta.
    destruct (wolfram_GetQueryResult W answer []) as [res | err];
      [| reflexivity].
    rewrite run_format_report.
    destruct (no_answer res); [reflexivity |].
    destruct (Pods res !! 1) as [pod |]; [| reflexivity].
    destruct (SubPods pod !! 0); reflexivity.
Qed.

(** Once the NLU response is parsed and serialised, the query that
    reaches the knowledge engine (the RefinedQuery) is, in both handlers, the
    string form of the value [gjson] finds at [entity_path] when there is
    one, whatever the user wrote, and the user's query itself when there is
    none. *)
Theorem refined_query_extraction W query msg (data : list Byte.byte) :
  witai_Parse W query = Ok msg ->
  json_MarshalIndent W msg "" "    " = Ok data ->
  let value := gjson_Get W (string_of_bytes data) entity_path in
  (Exists value = true ->
   knowledge_queries (trace W (query_handler query)) = [String_ value] /\
   knowledge_queries (trace W (full_query_handler query)) = [String_ value]) /\
  (Exists value = false ->
   knowledge_queries (trace W (query_handler query)) = [query] /\
   knowledge_queries (trace W (full_query_handler query)) = [query]).
Proof.
  intros Hparse Hjson value.
  destruct (knowledge_queries_sent W query msg data Hparse Hjson) as [Hq Hf].
  fold value in Hq, Hf. rewrite Hq, Hf. unfold refine.
  split; intros ->; split; reflexivity.
Qed.

(** On a report whose second pod has a first sub-pod, the formatting step
    replies with the second pod's title between
    asterisks, a line feed, and that pod's first sub-pod text between triple
    backquotes; the reply is a function of these two strings alone, so a
    report that differs in any other pod or in later sub-pods of the second
    pod gets the same reply. *)
Theorem format_report_uses_second_pod_only W (res : QueryResult)
    (pod : Pod) (subpod : SubPod) :
  Pods res !! 1 = Some pod ->
  SubPods pod !! 0 = Some subpod ->
  run W (format_report res)
  = ([Ev (Reply ("*" +:+ Title pod +:+ "*" +:+ LF +:+
                 "```" +:+ Plaintext subpod +:+ "```"))], Returned tt) /\
  forall (res' : QueryResult) (pod' : Pod) (subpod' : SubPod),
    Pods res' !! 1 = Some pod' ->
    SubPods pod' !! 0 = Some subpod' ->
    Title pod' = Title pod ->
    Plaintext subpod' = Plaintext subpod ->
    run W (format_report res') = run W (format_report res).
Proof.
  intros Hpod Hsub. split.
  - rewrite run_format_report, Hpod, Hsub. reflexivity.
  - intros res' pod' subpod' Hpod' Hsub' HT HP.
    rewrite !run_format_report, Hpod, Hsub, Hpod', Hsub', HT, HP. reflexivity.
Qed.

(** C8.  In spoken mode the knowledge engine is called exactly once, with
    the refined query, [wolfram.Metric] and a cap of 1000 characters, and
    when that call succeeds the only reply is the engine's answer itself. *)
Theorem spoken_single_metric_round_trip W query msg (data : list Byte.byte) :
  witai_Parse W query = Ok msg ->
  json_MarshalIndent W msg "" "    " = Ok data ->
  let answer := refine query (gjson_Get W (string_of_bytes data) entity_path) in
  knowledge_calls (trace W (query_handler query))
  = [Ev (GetSpokentAnswerQuery answer Metric 1000)] /\
  forall res : string,
    wolfram_GetSpokentAnswerQuery W answer Metric 1000 = Ok res ->
    replies (trace W (query_handler query)) = [res].
Proof.
  intros Hparse Hjson answer. unfold trace.
  rewrite run_query_handler, Hparse, Hjson. fold answer. cbv zeta. split.
  - destruct (wolfram_GetSpokentAnswerQuery W answer Metric 1000); reflexivity.
  - intros res ->. reflexivity.
Qed.

(** C9.  Whatever the collaborators do, the first thing the full handler
    does is to reply ["Thinking..."]: every call to Wit.ai or Wolfram Alpha
    and every other reply comes after it. *)
Theorem thinking_is_sent_first W query :
  exists rest : list (event Msg),
    trace W (full_query_handler query) = Ev (Reply "Thinking...") :: rest /\
    replies (trace W (full_query_handler query))
    = "Thinking..." :: replies rest.
Proof.
  unfold trace, full_query_handler.
  match goal with
  | |- context [run W (bind (do ?c) ?f)] =>
      change (bind (do c) f) with (Call c f)
  end.
  rewrite run_call. eexists. split; reflexivity.
Qed.

Lemma no_answer_true (res : QueryResult) :
  no_answer res = true <-> Success res = "false" \/ length (Pods res) < 2.
Proof.
  unfold no_answer. rewrite orb_true_iff, String.eqb_eq, Nat.ltb_lt. tauto.
Qed.

Lemma no_answer_false (res : QueryResult) :
  no_answer res = false <-> Success res <> "false" /\ 2 <= length (Pods res).
Proof.
  unfold no_answer. rewrite orb_false_iff, String.eqb_neq, Nat.ltb_ge. tauto.
Qed.

(** The guard of the full handler, on any value of [Success]: a report
    whose [Success] is the string ["false"] or that has fewer than two pods
    gets the fixed no-answer reply and the handler ends there; the formatting
    step runs on the other reports. *)
Theorem no_answer_short_circuit W query msg (res : QueryResult) :
  witai_Parse W query = Ok msg ->
  let rough := string_of_bytes (drop_err (json_MarshalIndent W msg "" "    ")) in
  let answer := refine query (gjson_Get W rough entity_path) in
  wolfram_GetQueryResult W answer [] = Ok res ->
  let pre := [Ev (Reply "Thinking..."); Ev (Parse query);
              Ev (MarshalIndent msg "" "    ");
              Ev (Get rough entity_path); Ev (GetQueryResult answer [])] in
  (Success res = "false" \/ length (Pods res) < 2 ->
   run W (full_query_handler query)
   = (pre ++ [Ev (Reply "Sorry, Wolfram Alpha couldn't find an answer for that.")],
      Returned tt)) /\
  (Success res <> "false" /\ 2 <= length (Pods res) ->
   run W (full_query_handler query)
   = (pre ++ trace W (format_report res), ending W (format_report res))).
Proof.
  intros Hparse rough answer Hfull pre.
  rewrite run_full_query_handler, Hparse. cbv zeta.
  fold rough. fold answer. rewrite Hfull. fold pre.
  split; intros Hres.
  - apply no_answer_true in Hres. rewrite Hres. reflexivity.
  - apply no_answer_false in Hres. rewrite Hres. reflexivity.
Qed.

(** C2.  For a report the knowledge engine returns in full mode, with its
    success flag ["true"] or ["false"]: when the report fails the usability
    invariant (flag ["true"] and at least two pods), the handler replies the
    fixed no-answer message after the acknowledgement and ends there, and
    the formatting step is not run; the formatting step runs on the reports
    that satisfy the invariant, and on no other. *)
Theorem usable_report_gate W query msg (res : QueryResult) :
  witai_Parse W query = Ok msg ->
  wolfram_GetQueryResult W (full_answer W query msg) [] = Ok res ->
  Success res = "true" \/ Success res = "false" ->
  let rough := string_of_bytes (drop_err (json_MarshalIndent W msg "" "    ")) in
  let pre := [Ev (Reply "Thinking..."); Ev (Parse query);
              Ev (MarshalIndent msg "" "    ");
              Ev (Get rough entity_path);
              Ev (GetQueryResult (full_answer W query msg) [])] in
  (~ (Success res = "true" /\ 2 <= length (Pods res)) ->
   run W (full_query_handler query)
   = (pre ++ [Ev (Reply "Sorry, Wolfram Alpha couldn't find an answer for that.")],
      Returned tt)) /\
  (Success res = "true" /\ 2 <= length (Pods res) ->
   run W (full_query_handler query)
   = (pre ++ trace W (format_report res), ending W (format_report res))).
Proof.
  intros Hparse Hfull Hflag rough pre. unfold full_answer in *.
  rewrite run_full_query_handler, Hparse. cbv zeta.
  rewrite Hfull.
  split; intros Hres.
  - assert (Hguard : no_answer res = true).
    { apply no_answer_true. destruct Hflag as [Htrue | Hfalse].
      - right. destruct (Nat.lt_ge_cases (length (Pods res)) 2) as [Hlt | Hge];
          [exact Hlt | exfalso; apply Hres; split; assumption].
      - left. exact Hfalse. }
    rewrite Hguard. reflexivity.
  - assert (Hguard : no_answer res = false).
    { apply no_answer_false. destruct Hres as [Htrue Hlen].
      split; [rewrite Htrue; discriminate | exact Hlen]. }
    rewrite Hguard. reflexivity.
Qed.

(** C4, amended.  The spoken handler always returns and sends exactly one
    reply.  The full handler, whenever it returns, has sent exactly two: the
    ["Thinking..."] acknowledgement and then one final reply. *)
Theorem replies_per_invocation W query :
  (ending W (query_handler query) = Returned tt /\
   length (replies (trace W (query_handler query))) = 1) /\
  (ending W (full_query_handler query) = Returned tt ->
   exists final : string,
     replies (trace W (full_query_handler query)) = ["Thinking..."; final]).
Proof.
  unfold ending, trace. split.
  - rewrite run_query_handler.
    destruct (witai_Parse W query) as [msg | err]; [| split; reflexivity].
    destruct (json_MarshalIndent W msg "" "    ") as [data | err];
      [| split; reflexivity].
    cbv zeta.
    destruct (wolfram_GetSpokentAnswerQuery W _ Metric 1000);
      split; reflexivity.
  - rewrite run_full_query_handler.
    destruct (witai_Parse W query) as [msg | err]; [| eexists; reflexivity].
    cbv zeta.
    destruct (wolfram_GetQueryResult W _ []) as [res | err];
      [| eexists; reflexivity].
    destruct (no_answer res); [eexists; reflexivity |].
    rewrite run_format_report.
    destruct (Pods res !! 1) as [pod |]; [| discriminate].
    destruct (SubPods pod !! 0) as [subpod |]; [| discriminate].
    intros _. eexists. reflexivity.
Qed.

(** C5, amended.  When the call to Wit.ai fails, either handler logs the
    error, replies that it is having trouble understanding right now (in
    full mode after the acknowledgement) and does nothing more.  When the
    serialisation of the response fails in spoken mode, the handler logs the
    error, replies that it is having trouble processing the response, and
    does nothing more. *)
Theorem nlu_failure_replies W query :
  (forall err : error,
     witai_Parse W query = Err err ->
     run W (query_handler query)
     = ([Ev (Parse query); Ev (Printf ("error calling Wit.ai: " +:+ err));
         Ev (Reply "Sorry, I'm having trouble understanding right now.")],
        Returned tt) /\
     run W (full_query_handler query)
     = ([Ev (Reply "Thinking..."); Ev (Parse query);
         Ev (Printf ("error calling Wit.ai: " +:+ err));
         Ev (Reply "Sorry, I'm having trouble understanding right now.")],
        Returned tt)) /\
  (forall msg (err : error),
     witai_Parse W query = Ok msg ->
     json_MarshalIndent W msg "" "    " = Err err ->
     run W (query_handler query)
     = ([Ev (Parse query); Ev (MarshalIndent msg "" "    ");
         Ev (Printf ("error marshalling wit.ai response: " +:+ err));
         Ev (Reply "Sorry, I'm having trouble processing the response.")],
        Returned tt)).
Proof.
  split.
  - intros err Hparse.
    rewrite run_query_handler, run_full_query_handler, Hparse.
    split; reflexivity.
  - intros msg err Hparse Hjson.
    rewrite run_query_handler, Hparse, Hjson. reflexivity.
Qed.

(** C7, amended.  For a non-empty user message, the query sent to the
    knowledge engine is non-empty when [gjson] finds no value at
    [entity_path] (the fallback) or finds one whose string form is
    non-empty. *)
Theorem refined_query_nonempty W query msg (data : list Byte.byte) :
  query <> "" ->
  witai_Parse W query = Ok msg ->
  json_MarshalIndent W msg "" "    " = Ok data ->
  let value := gjson_Get W (string_of_bytes data) entity_path in
  Exists value = false \/ String_ value <> "" ->
  exists answer : string,
    answer <> "" /\
    knowledge_queries (trace W (query_handler query)) = [answer] /\
    knowledge_queries (trace W (full_query_handler query)) = [answer].
Proof.
  intros Hquery Hparse Hjson value Hvalue.
  destruct (knowledge_queries_sent W query msg data Hparse Hjson) as [Hq Hf].
  fold value in Hq, Hf.
  exists (refine query value). split; [| split; assumption].
  unfold refine. destruct (Exists value).
  - destruct Hvalue as [Hno | Hne]; [discriminate | exact Hne].
  - exact Hquery.
Qed.

End Pipeline.

(** ** Scenarios *)

(** The four scenarios the specification lists, run on the test doubles. *)
Example scenario_capital_of_france :
  replies (trace world_paris (query_handler "capital of france")) = ["Paris"].
Proof. reflexivity. Qed.

Example scenario_knowledge_offline :
  knowledge_queries (trace world_offline (query_handler "asdkjasd")) = ["asdkjasd"] /\
  replies (trace world_offline (query_handler "asdkjasd"))
  = ["Sorry, I couldn't get an answer from Wolfram Alpha."].
Proof. split; reflexivity. Qed.

Example scenario_weather_report :
  replies (trace world_weather (full_query_handler "weather in new york"))
  = ["Thinking..."; "*Weather*" +:+ LF +:+ "```72 F```"].
Proof. reflexivity. Qed.

Example scenario_report_failed :
  replies (trace world_failed (full_query_handler "asdkjasd"))
  = ["Thinking..."; "Sorry, Wolfram Alpha couldn't find an answer for that."].
Proof. reflexivity. Qed.

(** ** The theorems at concrete requests *)

Lemma refined_query_extraction_witness :
  witai_Parse world_paris "what is the capital of france"
  = Ok (Entity "capital of france") /\
  knowledge_queries
    (trace world_paris (query_handler "what is the capital of france"))
  = ["capital of france"] /\
  knowledge_queries
    (trace world_paris (full_query_handler "what is the capital of france"))
  = ["capital of france"].
Proof.
  split; [reflexivity |].
  apply (refined_query_extraction world_paris "what is the capital of france"
           (Entity "capital of france")
           (String.list_byte_of_string "Ecapital of france"));
    reflexivity.
Defined.

Lemma no_answer_short_circuit_witness :
  wolfram_GetQueryResult world_failed "asdkjasd" [] = Ok report_failed /\
  Success report_failed = "false" /\
  run world_failed (full_query_handler "asdkjasd")
  = ([Ev (Reply "Thinking..."); Ev (Parse "asdkjasd");
      Ev (MarshalIndent NoEntity "" "    "); Ev (Get "N" entity_path);
      Ev (GetQueryResult "asdkjasd" []);
      Ev (Reply "Sorry, Wolfram Alpha couldn't find an answer for that.")],
     Returned tt).
Proof.
  split; [reflexivity |]. split; [reflexivity |].
  apply (no_answer_short_circuit world_failed "asdkjasd" NoEntity report_failed);
    [reflexivity | reflexivity | left; reflexivity].
Defined.

Lemma usable_report_gate_witness :
  wolfram_GetQueryResult world_failed "asdkjasd" [] = Ok report_failed /\
  Success report_failed = "false" /\
  ~ (Success report_failed = "true" /\ 2 <= length (Pods report_failed)) /\
  replies (trace world_failed (full_query_handler "asdkjasd"))
  = ["Thinking..."; "Sorry, Wolfram Alpha couldn't find an answer for that."].
Proof.
  split; [reflexivity |]. split; [reflexivity |].
  split; [intros [Hflag _]; discriminate Hflag |].
  unfold trace.
  rewrite (proj1 (usable_report_gate world_failed "asdkjasd" NoEntity
                    report_failed eq_refl eq_refl (or_intror eq_refl))).
  - reflexivity.
  - intros [Hflag _]. discriminate Hflag.
Defined.

Lemma format_report_uses_second_pod_only_witness :
  Pods report_weather !! 1 = Some pod_weather /\
  SubPods pod_weather !! 0 = Some {| Plaintext := "72 F" |} /\
  run world_weather (format_report report_weather)
  = ([Ev (Reply ("*Weather*" +:+ LF +:+ "```72 F```"))], Returned tt).
Proof.
  split; [reflexivity |]. split; [reflexivity |].
  apply (format_report_uses_second_pod_only world_weather report_weather
           pod_weather {| Plaintext := "72 F" |}); reflexivity.
Defined.

Lemma replies_per_invocation_witness :
  ending world_weather (full_query_handler "weather in new york") = Returned tt /\
  exists final : string,
    replies (trace world_weather (full_query_handler "weather in new york"))
    = ["Thinking..."; final].
Proof.
  split; [reflexivity |].
  apply (replies_per_invocation world_weather "weather in new york").
  reflexivity.
Defined.

Lemma nlu_failure_replies_witness :
  witai_Parse world_no_nlu "capital of france" = Err "connection refused" /\
  replies (trace world_no_nlu (query_handler "capital of france"))
  = ["Sorry, I'm having trouble understanding right now."] /\
  json_MarshalIndent world_unserializable Unserializable "" "    "
  = Err "json: unsupported value: NaN" /\
  replies (trace world_unserializable (query_handler "capital of france"))
  = ["Sorry, I'm having trouble processing the response."].
Proof.
  split; [reflexivity |]. split.
  - unfold trace.
    rewrite (proj1 (proj1 (nlu_failure_replies world_no_nlu "capital of france")
                      "connection refused" eq_refl)).
    reflexivity.
  - split; [reflexivity |]. unfold trace.
    rewrite (proj2 (nlu_failure_replies world_unserializable "capital of france")
               Unserializable "json: unsupported value: NaN" eq_refl eq_refl).
    reflexivity.
Defined.

Lemma refined_query_nonempty_witness :
  "what is the capital of france" <> "" /\
  exists answer : string,
    answer <> "" /\
    knowledge_queries
      (trace world_paris (query_handler "what is the capital of france"))
    = [answer] /\
    knowledge_queries
      (trace world_paris (full_query_handler "what is the capital of france"))
    = [answer].
Proof.
  split; [discriminate |].
  apply (refined_query_nonempty world_paris "what is the capital of france"
           (Entity "capital of france")
           (String.list_byte_of_string "Ecapital of france"));
    [discriminate | reflexivity | reflexivity | right; discriminate].
Defined.

Lemma spoken_single_metric_round_trip_witness :
  wolfram_GetSpokentAnswerQuery world_paris "capital of france" Metric 1000
  = Ok "Paris" /\
  knowledge_calls (trace world_paris (query_handler "capital of france"))
  = [Ev (GetSpokentAnswerQuery "capital of france" Metric 1000)] /\
  replies (trace world_paris (query_handler "capital of france")) = ["Paris"].
Proof.
  split; [reflexivity |].
  destruct (spoken_single_metric_round_trip world_paris "capital of france"
              (Entity "capital of france")
              (String.list_byte_of_string "Ecapital of france")
              eq_refl eq_refl) as [Hcalls Hreply].
  split; [exact Hcalls | apply Hreply; reflexivity].
Defined.

(** ** Where the handlers part from the specification *)

(** C1 at its failing input, in full mode: Wit.ai finds the entity
    ["capital of france"] in the user's message and its response does not
    serialise.  The full handler drops the error, looks the path up in the
    empty document and sends the user's whole message to the knowledge
    engine, not the value the NLU result holds; with the same entity in a
    response that serialises it sends the value. *)
Theorem full_handler_loses_entity_without_json :
  witai_Parse world_flawed_entity "what is the capital of france"
  = Ok {| held_value := "capital of france" |} /\
  json_MarshalIndent world_flawed_entity
    {| held_value := "capital of france" |} "" "    "
  = Err "json: unsupported value: NaN" /\
  run world_flawed_entity (full_query_handler "what is the capital of france")
  = ([Ev (Reply "Thinking..."); Ev (Parse "what is the capital of france");
      Ev (MarshalIndent {| held_value := "capital of france" |} "" "    ");
      Ev (Get "" entity_path);
      Ev (GetQueryResult "what is the capital of france" []);
      Ev (Reply ("*Weather*" +:+ LF +:+ "```72 F```"))],
     Returned tt) /\
  knowledge_queries
    (trace world_flawed_entity
       (full_query_handler "what is the capital of france"))
  = ["what is the capital of france"] /\
  knowledge_queries
    (trace world_paris (full_query_handler "what is the capital of france"))
  = ["capital of france"].
Proof. repeat split; reflexivity. Qed.

(** C3 at its failing input: a report that passes the handler's guard and
    whose second pod, titled ["Result"], has no sub-pod.  The formatting
    step panics on [pod.SubPods[0]] and sends no reply at all; on the report
    of scenario 3 it sends the rendering of the second pod. *)
Theorem format_report_without_sub_pod :
  no_answer report_empty_pod = false /\
  Pods report_empty_pod !! 1 = Some pod_empty /\
  Title pod_empty = "Result" /\
  SubPods pod_empty = [] /\
  run world_empty_pod (format_report report_empty_pod)
  = ([], Panicked "index out of range") /\
  replies (trace world_empty_pod (format_report report_empty_pod)) = [] /\
  run world_weather (format_report report_weather)
  = ([Ev (Reply ("*Weather*" +:+ LF +:+ "```72 F```"))], Returned tt).
Proof. repeat split; reflexivity. Qed.

(** C4, as stated, fails: one invocation of the full handler sends two
    replies. *)
Lemma full_mode_sends_two_replies :
  length (replies (trace world_weather (full_query_handler "weather in new york")))
  = 2.
Proof. reflexivity. Qed.

(** C5, as stated, fails: when serialisation fails in spoken mode the reply
    is not the "trouble understanding" message. *)
Lemma serialization_failure_has_its_own_reply :
  witai_Parse world_unserializable "capital of france" = Ok Unserializable /\
  json_MarshalIndent world_unserializable Unserializable "" "    "
  = Err "json: unsupported value: NaN" /\
  replies (trace world_unserializable (query_handler "capital of france"))
  = ["Sorry, I'm having trouble processing the response."] /\
  ~ In "Sorry, I'm having trouble understanding right now."
       (replies (trace world_unserializable (query_handler "capital of france"))).
Proof.
  repeat (split; [reflexivity |]).
  intros [H | []]. discriminate H.
Qed.

(** C6 at its failing input: the NLU response does not serialise.  The
    spoken handler logs the error and replies with a fixed message; the full
    handler logs nothing, sends no error reply and goes on to query the
    knowledge engine with the user's text. *)
Theorem full_handler_drops_serialization_error :
  json_MarshalIndent world_unserializable Unserializable "" "    "
  = Err "json: unsupported value: NaN" /\
  run world_unserializable (query_handler "weather in new york")
  = ([Ev (Parse "weather in new york");
      Ev (MarshalIndent Unserializable "" "    ");
      Ev (Printf "error marshalling wit.ai response: json: unsupported value: NaN");
      Ev (Reply "Sorry, I'm having trouble processing the response.")],
     Returned tt) /\
  run world_unserializable (full_query_handler "weather in new york")
  = ([Ev (Reply "Thinking..."); Ev (Parse "weather in new york");
      Ev (MarshalIndent Unserializable "" "    ");
      Ev (Get "" entity_path);
      Ev (GetQueryResult "weather in new york" []);
      Ev (Reply ("*Weather*" +:+ LF +:+ "```72 F```"))],
     Returned tt) /\
  logs (trace world_unserializable (full_query_handler "weather in new york"))
  = [].
Proof. repeat split; reflexivity. Qed.

(** C7, as stated, fails: the user's message is non-empty, the NLU response
    holds the empty string at [entity_path], and the query sent to the
    knowledge engine is empty in both modes. *)
Lemma empty_entity_gives_empty_query :
  "capital of france" <> "" /\
  gjson_Get world_empty_entity "E" entity_path
  = {| Exists := true; String_ := "" |} /\
  knowledge_queries
    (trace world_empty_entity (query_handler "capital of france")) = [""] /\
  knowledge_queries
    (trace world_empty_entity (full_query_handler "capital of france")) = [""].
Proof. split; [discriminate |]. repeat split; reflexivity. Qed.

(** C10 at its failing input: the report passes the handler's check, its
    second pod has no sub-pod, and [pod.SubPods[0]] panics after the
    acknowledgement, before any final reply. *)
Theorem full_handler_index_out_of_range :
  no_answer report_empty_pod = false /\
  (Pods report_empty_pod !! 1 = Some pod_empty /\ SubPods pod_empty !! 0 = None) /\
  run world_empty_pod (full_query_handler "weather in new york")
  = ([Ev (Reply "Thinking..."); Ev (Parse "weather in new york");
      Ev (MarshalIndent NoEntity "" "    "); Ev (Get "N" entity_path);
      Ev (GetQueryResult "weather in new york" [])],
     Panicked "index out of range") /\
  replies (trace world_empty_pod (full_query_handler "weather in new york"))
  = ["Thinking..."].
Proof. repeat split; reflexivity. Qed.

(** ** Further properties of the handlers *)

Section Runs.
Context {Msg : Type}.
Implicit Types (W : world Msg) (query : string) (msg : Msg).

(** After the guard [len(res.Pods) < 2] has let a report through,
    [res.Pods[1]] is in range. *)
Lemma guard_gives_second_pod (res : QueryResult) :
  no_answer res = false -> exists pod : Pod, Pods res !! 1 = Some pod.
Proof.
  intros Hguard. apply no_answer_false in Hguard as [_ Hlen].
  destruct (lookup_lt_is_Some_2 (Pods res) 1) as [pod Hpod]; [lia |].
  exists pod. exact Hpod.
Qed.

(** Case analysis on a run of the spoken handler. *)
Ltac spoken_cases W query :=
  unfold trace, ending; rewrite ?run_query_handler;
  destruct (witai_Parse W query) as [msg | err] eqn:Hparse;
  [ destruct (json_MarshalIndent W msg "" "    ") as [data | err] eqn:Hjson;
    [ cbv zeta;
      destruct (wolfram_GetSpokentAnswerQuery W _ Metric 1000)
        as [res | err] eqn:Hspoken
    | ]
  | ].

(** Case analysis on a run of the full handler; the case of a report let
    through by the guard without a second pod is closed. *)
Ltac full_cases W query :=
  unfold trace, ending; rewrite ?run_full_query_handler;
  destruct (witai_Parse W query) as [msg | err] eqn:Hparse;
  [ cbv zeta;
    destruct (wolfram_GetQueryResult W _ []) as [res | err] eqn:Hfull;
    [ destruct (no_answer res) eqn:Hguard;
      [ | rewrite ?run_format_report;
          destruct (guard_gives_second_pod res Hguard) as [pod Hpod];
          rewrite ?Hpod;
          destruct (SubPods pod !! 0) as [subpod |] eqn:Hsub ]
    | ]
  | ].

(** X1.  Spoken mode, knowledge engine failing: the handler logs the error
    after ["wolfram query failed: "], replies the fixed "couldn't get an
    answer" message once, and returns. *)
Theorem spoken_knowledge_unavailable W query msg (data : list Byte.byte)
    (err : error) :
  witai_Parse W query = Ok msg ->
  json_MarshalIndent W msg "" "    " = Ok data ->
  let answer := refine query (gjson_Get W (string_of_bytes data) entity_path) in
  wolfram_GetSpokentAnswerQuery W answer Metric 1000 = Err err ->
  run W (query_handler query)
  = ([Ev (Parse query); Ev (MarshalIndent msg "" "    ");
      Ev (Get (string_of_bytes data) entity_path);
      Ev (GetSpokentAnswerQuery answer Metric 1000);
      Ev (Printf ("wolfram query failed: " +:+ err));
      Ev (Reply "Sorry, I couldn't get an answer from Wolfram Alpha.")],
     Returned tt).
Proof.
  intros Hparse Hjson answer Hspoken.
  rewrite run_query_handler, Hparse, Hjson. fold answer. cbv zeta.
  rewrite Hspoken. reflexivity.
Qed.

(** X2.  Full mode, knowledge engine failing: after the acknowledgement the
    handler logs the error after ["wolfram full query failed: "], replies the
    fixed "couldn't get a full report" message, and returns; this holds
    whether or not the NLU response could be serialised. *)
Theorem full_knowledge_unavailable W query msg (err : error) :
  witai_Parse W query = Ok msg ->
  let rough := string_of_bytes (drop_err (json_MarshalIndent W msg "" "    ")) in
  let answer := refine query (gjson_Get W rough entity_path) in
  wolfram_GetQueryResult W answer [] = Err err ->
  run W (full_query_handler query)
  = ([Ev (Reply "Thinking..."); Ev (Parse query);
      Ev (MarshalIndent msg "" "    "); Ev (Get rough entity_path);
      Ev (GetQueryResult answer []);
      Ev (Printf ("wolfram full query failed: " +:+ err));
      Ev (Reply "Sorry, I couldn't get a full report from Wolfram Alpha.")],
     Returned tt).
Proof.
  intros Hparse rough answer Hfull.
  rewrite run_full_query_handler, Hparse. cbv zeta.
  fold rough. fold answer. rewrite Hfull. reflexivity.
Qed.

(** X3.  The two modes never mix: no run of the spoken handler asks for a
    full report, and no run of the full handler asks for a spoken answer. *)
Theorem modes_do_not_mix W query :
  filter is_GetQueryResult (trace W (query_handler query)) = [] /\
  filter is_GetSpokentAnswerQuery (trace W (full_query_handler query)) = [].
Proof.
  split.
  - spoken_cases W query; reflexivity.
  - full_cases W query; reflexivity.
Qed.

(** X4.  Nothing is retried.  In every run of either handler Wit.ai is
    called exactly once, with the user's message as it came, and the
    serialiser, [gjson] and the knowledge engine are each called at most
    once. *)
Theorem no_call_is_repeated W query :
  let calls_once (t : list (event Msg)) :=
    parsed_texts t = [query] /\
    length (filter is_MarshalIndent t) <= 1 /\
    length (filter is_Get t) <= 1 /\
    length (knowledge_calls t) <= 1 in
  calls_once (trace W (query_handler query)) /\
  calls_once (trace W (full_query_handler query)).
Proof.
  cbv zeta. split.
  - spoken_cases W query; repeat split; simpl; lia.
  - full_cases W query; repeat split; simpl; lia.
Qed.

(** X5.  The knowledge engine is queried exactly when what comes before it
    succeeded: in spoken mode when Wit.ai answered and the answer was
    serialised, in full mode as soon as Wit.ai answered. *)
Theorem knowledge_engine_called_iff W query :
  (length (knowledge_calls (trace W (query_handler query))) = 1 <->
   exists msg (data : list Byte.byte),
     witai_Parse W query = Ok msg /\
     json_MarshalIndent W msg "" "    " = Ok data) /\
  (length (knowledge_calls (trace W (full_query_handler query))) = 1 <->
   exists msg, witai_Parse W query = Ok msg).
Proof.
  split.
  - spoken_cases W query; simpl;
      (split; [intros H; try discriminate H; eauto
              | intros (msg' & data' & Hm & Hd); simplify_eq; congruence]).
  - full_cases W query; simpl;
      (split; [intros H; try discriminate H; eauto
              | intros (msg' & Hm); simplify_eq; congruence]).
Qed.

(** X6.  The spoken handler logs at most one line per request, and logs
    nothing exactly when Wit.ai, the serialiser and the knowledge engine all
    succeeded. *)
Theorem spoken_logs_iff_failure W query :
  length (logs (trace W (query_handler query))) <= 1 /\
  (logs (trace W (query_handler query)) = [] <->
   exists msg (data : list Byte.byte) (res : string),
     witai_Parse W query = Ok msg /\
     json_MarshalIndent W msg "" "    " = Ok data /\
     wolfram_GetSpokentAnswerQuery W (spoken_answer W query data) Metric 1000
     = Ok res).
Proof.
  unfold spoken_answer.
  spoken_cases W query; simpl; (split; [lia |]);
    (split; [intros H; try discriminate H; eauto 6
            | intros (msg' & data' & res' & Hm & Hd & Hs);
              simplify_eq; congruence]).
Qed.

(** X7.  The full handler logs nothing exactly when Wit.ai and the knowledge
    engine both answered: the no-answer reply, a dropped serialisation error
    and the out-of-range panic leave no line in the log. *)
Theorem full_logs_iff_failure W query :
  length (logs (trace W (full_query_handler query))) <= 1 /\
  (logs (trace W (full_query_handler query)) = [] <->
   exists msg (res : QueryResult),
     witai_Parse W query = Ok msg /\
     wolfram_GetQueryResult W (full_answer W query msg) [] = Ok res).
Proof.
  unfold full_answer.
  full_cases W query; simpl; (split; [lia |]);
    (split; [intros H; try discriminate H; eauto 6
            | intros (msg' & res' & Hm & Hr); simplify_eq; congruence]).
Qed.

(** X8.  The full handler panics in one situation only: the knowledge engine
    returned a report that passes the guard and whose second pod has no
    sub-pod.  The index [res.Pods[1]] itself is never out of range. *)
Theorem full_handler_panics_iff W query :
  (exists reason : string,
     ending W (full_query_handler query) = Panicked reason) <->
  exists msg (res : QueryResult) (pod : Pod),
    witai_Parse W query = Ok msg /\
    wolfram_GetQueryResult W (full_answer W query msg) [] = Ok res /\
    no_answer res = false /\
    Pods res !! 1 = Some pod /\
    SubPods pod = [].
Proof.
  unfold full_answer.
  full_cases W query; simpl.
  1, 4-5:
    (split; [intros [reason H]; discriminate H
            | intros (msg' & res' & pod' & Hm & Hr & Hg & Hp & Hs);
              simplify_eq; congruence]).
  - split; [intros [reason H]; discriminate H |].
    intros (msg' & res' & pod' & Hm & Hr & Hg & Hp & Hs). simplify_eq.
    assert (res' = res) by congruence. subst res'.
    assert (pod' = pod) by congruence. subst pod'.
    rewrite Hs in Hsub. discriminate Hsub.
  - split; [| eauto].
    intros _. exists msg, res, pod. repeat (split; [assumption || reflexivity |]).
    destruct (SubPods pod); [reflexivity | discriminate Hsub].
Qed.

(** X9.  Full mode end to end: for a report whose [Success] is not
    ["false"], with a second pod that has a first sub-pod, the handler sends
    the acknowledgement, makes its four calls, replies the rendering of that
    pod and returns. *)
Theorem full_report_reply W query msg (res : QueryResult) (pod : Pod)
    (subpod : SubPod) :
  witai_Parse W query = Ok msg ->
  wolfram_GetQueryResult W (full_answer W query msg) [] = Ok res ->
  Success res <> "false" ->
  Pods res !! 1 = Some pod ->
  SubPods pod !! 0 = Some subpod ->
  run W (full_query_handler query)
  = ([Ev (Reply "Thinking..."); Ev (Parse query);
      Ev (MarshalIndent msg "" "    ");
      Ev (Get (string_of_bytes (drop_err (json_MarshalIndent W msg "" "    ")))
            entity_path);
      Ev (GetQueryResult (full_answer W query msg) []);
      Ev (Reply ("*" +:+ Title pod +:+ "*" +:+ LF +:+
                 "```" +:+ Plaintext subpod +:+ "```"))],
     Returned tt).
Proof.
  intros Hparse Hfull Hflag Hpod Hsub. unfold full_answer in *.
  assert (Hguard : no_answer res = false).
  { apply no_answer_false. split; [exact Hflag |].
    apply lookup_lt_Some in Hpod. lia. }
  rewrite run_full_query_handler, Hparse. cbv zeta.
  rewrite Hfull, Hguard, run_format_report, Hpod, Hsub. reflexivity.
Qed.

(** X10.  In every run of the full handler ["Thinking..."] is the first
    reply and no later reply repeats it: the acknowledgement never stands in
    for the final answer. *)
Theorem thinking_is_sent_once W query :
  exists rest : list string,
    replies (trace W (full_query_handler query)) = "Thinking..." :: rest /\
    ~ In "Thinking..." rest.
Proof.
  full_cases W query; simpl; eexists; (split; [reflexivity |]);
    simpl; intros H; repeat destruct H as [H | H]; try discriminate H;
    try exact H.
Qed.

(** X11.  No reply of the full handler is blank.  A reply of the spoken
    handler is blank only when it is the knowledge engine's own answer and
    that answer is the empty string. *)
Theorem replies_are_not_blank W query :
  (forall r : string,
     In r (replies (trace W (full_query_handler query))) -> r <> "") /\
  (forall r : string,
     In r (replies (trace W (query_handler query))) -> r = "" ->
     exists msg (data : list Byte.byte),
       witai_Parse W query = Ok msg /\
       json_MarshalIndent W msg "" "    " = Ok data /\
       wolfram_GetSpokentAnswerQuery W (spoken_answer W query data) Metric 1000
       = Ok "").
Proof.
  unfold spoken_answer. split.
  - full_cases W query; simpl; intros r H;
      repeat destruct H as [H | H]; try contradiction;
      subst r; discriminate.
  - spoken_cases W query; simpl; intros r H Hr;
      repeat destruct H as [H | H]; try contradiction;
      subst r; try discriminate Hr.
    subst res. eauto.
Qed.

(** X12.  In full mode a serialisation failure stops nothing: the path is
    looked up in the empty document, the knowledge engine is queried with
    what comes out of it (the user's text when [gjson] finds nothing there),
    and the only line that can be logged is the one of a failing knowledge
    call. *)
Theorem full_handler_continues_without_json W query msg (err : error) :
  witai_Parse W query = Ok msg ->
  json_MarshalIndent W msg "" "    " = Err err ->
  filter is_Get (trace W (full_query_handler query)) = [Ev (Get "" entity_path)] /\
  knowledge_queries (trace W (full_query_handler query))
  = [refine query (gjson_Get W "" entity_path)] /\
  (Exists (gjson_Get W "" entity_path) = false ->
   knowledge_queries (trace W (full_query_handler query)) = [query]) /\
  (forall line : string,
     In line (logs (trace W (full_query_handler query))) ->
     exists e : error, line = "wolfram full query failed: " +:+ e).
Proof.
  intros Hparse Hjson. unfold trace.
  rewrite run_full_query_handler, Hparse, Hjson. cbn [drop_err]. cbv zeta.
  change (string_of_bytes []) with "".
  destruct (wolfram_GetQueryResult W _ []) as [res | e];
    [ destruct (no_answer res) eqn:Hguard;
      [ | rewrite run_format_report;
          destruct (guard_gives_second_pod res Hguard) as [pod ->];
          destruct (SubPods pod !! 0) ]
    | ];
    (split; [reflexivity |]; split; [reflexivity |]; split;
     [ intros Hnone; unfold refine; rewrite Hnone; reflexivity
     | simpl; intros line H; repeat destruct H as [H | H];
       try contradiction; eauto ]).
Qed.

End Runs.

(** ** Properties of the event printer *)

Section PrinterFacts.
Context {Time Properties MessageEvent : Type}.
Implicit Types (events : list (CommandEvent Time Properties MessageEvent)).

Lemma printCommandEvents_app events events' :
  printCommandEvents (events ++ events')
  = printCommandEvents events ++ printCommandEvents events'.
Proof.
  induction events as [| event events IH]; simpl; [reflexivity |].
  now rewrite IH.
Qed.

Lemma printCommandEvents_length events :
  length (printCommandEvents events) = 6 * length events.
Proof. induction events as [| event events IH]; simpl; lia. Qed.

(** X13.  The printer writes six lines per event, in the order the events
    arrive: the lines of the [k]-th event start at line [6k] and are the
    header ["Command Events"], the time stamp, the command, the parameters,
    the Slack event and an empty line. *)
Theorem printCommandEvents_layout events (k : nat)
    (event : CommandEvent Time Properties MessageEvent) :
  events !! k = Some event ->
  length (printCommandEvents events) = 6 * length events /\
  take 6 (drop (6 * k) (printCommandEvents events))
  = [PString "Command Events"; PTime (Timestamp event);
     PString (Command event); PProperties (Parameters event);
     PEvent (Event event); PNothing].
Proof.
  intros Hk. split; [apply printCommandEvents_length |].
  apply list_elem_of_split_length in Hk as (before & after & -> & ->).
  rewrite printCommandEvents_app, drop_app_length'.
  - reflexivity.
  - symmetry. apply printCommandEvents_length.
Qed.

(** X14.  The printed lines determine the events: two streams that print
    the same are the same stream, so the log loses no event and no field. *)
Theorem printCommandEvents_inj events events' :
  printCommandEvents events = printCommandEvents events' ->
  events = events'.
Proof.
  revert events'.
  induction events as [| [t c p e] events IH]; intros [| [t' c' p' e'] events'];
    simpl; intros H; try discriminate H; [reflexivity |].
  injection H as -> -> -> -> H. f_equal. apply IH. exact H.
Qed.

End PrinterFacts.

(** ** Properties of start-up *)

Section StartupFacts.
Context {Msg : Type}.

(** X15.  The process ends in one of two ways, decided by [bot.Listen]
    alone.  When it returns an error, [log.Fatal] reports that error as the
    last step and the process exits with status 1 without running the
    deferred [cancel].  When it returns nil, [main] returns after running
    [cancel] exactly once, as its last step. *)
Theorem main_exit (getenv : string -> string) (listen : option error) :
  let r := run_boot (Msg := Msg) getenv listen [] main in
  match listen with
  | Some err =>
      snd r = Exits 1 /\ last (fst r) = Some (log_Fatal err) /\
      filter is_cancel (fst r) = []
  | None =>
      snd r = MainReturns /\ last (fst r) = Some cancel /\
      length (filter is_cancel (fst r)) = 1
  end.
Proof. destruct listen as [err |]; repeat split; reflexivity. Qed.

(** X16.  Start-up does not check its configuration: whatever the
    environment holds, [main] hands the values of [SLACK_BOT_TOKEN],
    [SLACK_APP_TOKEN], [WIT_AI_TOKEN] and [WOLFRAM_APP_ID] to the clients as
    they are, registers the two commands, spoken first, with the two
    handlers, and calls [bot.Listen] exactly once. *)
Theorem main_registers_both_commands (getenv : string -> string)
    (listen : option error) :
  let t := fst (run_boot (Msg := Msg) getenv listen [] main) in
  credentials t
  = [getenv "SLACK_BOT_TOKEN"; getenv "SLACK_APP_TOKEN";
     getenv "WIT_AI_TOKEN"; getenv "WOLFRAM_APP_ID"] /\
  commands t
  = [("query for bot - <message>",
      {| Description := "send any question to wolfram"; Example :=
         "who is the president of india"; Handler := query_handler |});
     ("full query for bot - <message>",
      {| Description := "send any question to wolfram for a full report"; Example :=
         "weather in new york"; Handler := full_query_handler |})] /\
  length (filter is_Listen t) = 1.
Proof. destruct listen as [err |]; repeat split; reflexivity. Qed.

End StartupFacts.

(** ** The further properties at concrete requests *)

Lemma spoken_knowledge_unavailable_witness :
  wolfram_GetSpokentAnswerQuery world_offline "asdkjasd" Metric 1000
  = Err "connection refused" /\
  replies (trace world_offline (query_handler "asdkjasd"))
  = ["Sorry, I couldn't get an answer from Wolfram Alpha."] /\
  logs (trace world_offline (query_handler "asdkjasd"))
  = ["wolfram query failed: connection refused"].
Proof.
  split; [reflexivity |]. unfold trace.
  rewrite (spoken_knowledge_unavailable world_offline "asdkjasd" NoEntity
             (String.list_byte_of_string "N") "connection refused"
             eq_refl eq_refl eq_refl).
  split; reflexivity.
Defined.

Lemma full_knowledge_unavailable_witness :
  wolfram_GetQueryResult world_offline "asdkjasd" [] = Err "connection refused" /\
  replies (trace world_offline (full_query_handler "asdkjasd"))
  = ["Thinking..."; "Sorry, I couldn't get a full report from Wolfram Alpha."].
Proof.
  split; [reflexivity |]. unfold trace.
  rewrite (full_knowledge_unavailable world_offline "asdkjasd" NoEntity
             "connection refused" eq_refl eq_refl).
  reflexivity.
Defined.

Lemma knowledge_engine_called_iff_witness :
  length (knowledge_calls (trace world_paris (query_handler "capital of france")))
  = 1.
Proof.
  apply (proj2 (proj1 (knowledge_engine_called_iff world_paris "capital of france"))).
  exists (Entity "capital of france"),
         (String.list_byte_of_string "Ecapital of france").
  split; reflexivity.
Defined.

Lemma spoken_logs_iff_failure_witness :
  logs (trace world_paris (query_handler "capital of france")) = [].
Proof.
  apply (proj2 (proj2 (spoken_logs_iff_failure world_paris "capital of france"))).
  exists (Entity "capital of france"),
         (String.list_byte_of_string "Ecapital of france"), "Paris".
  repeat split; reflexivity.
Defined.

Lemma full_logs_iff_failure_witness :
  logs (trace world_failed (full_query_handler "asdkjasd")) = [].
Proof.
  apply (proj2 (proj2 (full_logs_iff_failure world_failed "asdkjasd"))).
  exists NoEntity, report_failed. split; reflexivity.
Defined.

Lemma full_handler_panics_iff_witness :
  exists reason : string,
    ending world_empty_pod (full_query_handler "weather in new york")
    = Panicked reason.
Proof.
  apply (proj2 (full_handler_panics_iff world_empty_pod "weather in new york")).
  exists NoEntity, report_empty_pod, pod_empty.
  repeat split; reflexivity.
Defined.

Lemma full_report_reply_witness :
  Success report_no_flag <> "false" /\
  replies (trace world_no_flag (full_query_handler "weather in new york"))
  = ["Thinking..."; "*Weather*" +:+ LF +:+ "```72 F```"].
Proof.
  split; [discriminate |]. unfold trace.
  rewrite (full_report_reply world_no_flag "weather in new york" NoEntity
             report_no_flag pod_weather {| Plaintext := "72 F" |}
             eq_refl eq_refl).
  - reflexivity.
  - discriminate.
  - reflexivity.
  - reflexivity.
Defined.

Lemma replies_are_not_blank_witness :
  "Sorry, Wolfram Alpha couldn't find an answer for that." <> "".
Proof.
  apply (proj1 (replies_are_not_blank world_failed "asdkjasd")).
  right. left. reflexivity.
Defined.

Lemma full_handler_continues_without_json_witness :
  json_MarshalIndent world_unserializable Unserializable "" "    "
  = Err "json: unsupported value: NaN" /\
  Exists (gjson_Get world_unserializable "" entity_path) = false /\
  knowledge_queries
    (trace world_unserializable (full_query_handler "weather in new york"))
  = ["weather in new york"].
Proof.
  split; [reflexivity |]. split; [reflexivity |].
  destruct (full_handler_continues_without_json world_unserializable
              "weather in new york" Unserializable
              "json: unsupported value: NaN" eq_refl eq_refl)
    as (_ & _ & Hfallback & _).
  apply Hfallback. reflexivity.
Defined.

Lemma printCommandEvents_layout_witness :
  [sample_event "query for bot - <message>" 1;
   sample_event "full query for bot - <message>" 2] !! 1
  = Some (sample_event "full query for bot - <message>" 2) /\
  take 6 (drop 6 (printCommandEvents
                    [sample_event "query for bot - <message>" 1;
                     sample_event "full query for bot - <message>" 2]))
  = [PString "Command Events"; PTime 2;
     PString "full query for bot - <message>";
     PProperties [("message", "capital of france")];
     PEvent "message"; PNothing].
Proof.
  split; [reflexivity |].
  apply (printCommandEvents_layout
           [sample_event "query for bot - <message>" 1;
            sample_event "full query for bot - <message>" 2] 1
           (sample_event "full query for bot - <message>" 2)).
  reflexivity.
Defined.

Lemma printCommandEvents_inj_witness :
  [sample_event "query for bot - <message>" 1]
  = [sample_event "query for bot - <message>" (0 + 1)].
Proof.
  apply (printCommandEvents_inj
           [sample_event "query for bot - <message>" 1]
           [sample_event "query for bot - <message>" (0 + 1)]).
  reflexivity.
Defined.
